(** * Currency Rate Analyst: the streaming bridge of [main.py]

    A shallow embedding of the two request handlers of the service,
    [stream_agent_progress] (POST /stream) and [query_agent] (POST /query),
    together with the request model [QueryRequest] and the static
    endpoints.

    The agent SDK's [query] is an asynchronous generator that the handlers
    consume with [async for].  A run of such a generator is a finite sequence
    of yielded messages closed either by normal exhaustion or by an
    exception; that is the type [Producer] below.  The handlers are given as
    functions that compute the ordered trace of what they do (frames handed
    to the transport, the call of [query], each advance of the producer)
    and, for the blocking handler, the HTTP result.

    Every frame of the stream is serialised with [json.dumps] inside the
    handler's [try] block.  On the values that travel here that call can
    fail in one way, by a [RecursionError] on a value that nests too deep;
    the handler's own payloads are flat, so this can happen for the frame
    of a tool-use block only, whose [input] comes from the producer. *)

From Stdlib Require Import String Ascii List ZArith Bool Lia.
Import ListNotations.
Open Scope string_scope.

(** ** Python values *)

(** The values that are put in event payloads and response bodies.  A float
    is carried by its [repr], which is what [json.dumps] prints and which
    determines the float. *)
#[local] Unset Elimination Schemes.
Inductive pyval : Type :=
| PNone
| PBool (b : bool)
| PInt (z : Z)
| PFloat (repr : string)
| PStr (s : string)
| PList (l : list pyval)
| PDict (d : list (string * pyval)).
#[local] Set Elimination Schemes.

(** A [dict] with string keys, in insertion order. *)
Definition dict : Type := list (string * pyval).

Fixpoint get (key : string) (d : dict) : option pyval :=
  match d with
  | [] => None
  | (k, v) :: d' => if String.eqb k key then Some v else get key d'
  end.

(** [x or {}] for an optional dict: [None] and the empty dict are falsy. *)
Definition or_empty (x : option dict) : dict :=
  match x with
  | Some (kv :: d) => kv :: d
  | Some [] => []
  | None => []
  end.

Definition newline : string := String (ascii_of_nat 10) EmptyString.

(** How deep the lists and dicts of a value nest. *)
Fixpoint depth (v : pyval) : nat :=
  match v with
  | PList l =>
      S ((fix deepest (l : list pyval) : nat :=
            match l with
            | [] => 0
            | x :: l' => Nat.max (depth x) (deepest l')
            end) l)
  | PDict d =>
      S ((fix deepest (d : list (string * pyval)) : nat :=
            match d with
            | [] => 0
            | (_, x) :: d' => Nat.max (depth x) (deepest d')
            end) d)
  | _ => 0
  end.

(** ** The SDK's message types, as far as the handlers inspect them *)

Inductive ContentBlock : Type :=
| TextBlock (text : string)
| ToolUseBlock (name : string) (input : dict)
| ToolResultBlock (tool_use_id : string)
| OtherBlock.

(** The fields of a [ResultMessage] that the handlers read;
    [total_cost_usd] is a float, by its [repr], or [None]. *)
Record ResultFields : Type := {
  duration_ms : Z;
  total_cost_usd : option string;
  num_turns : Z;
  session_id : string
}.

Inductive Message : Type :=
| AssistantMessage (content : list ContentBlock)
| ResultMessage (result : ResultFields)
| OtherMessage.

(** An instance of Python's [Exception], which is what the handlers'
    [except Exception] catches; [str e] is its message. *)
Record Exception : Type := {
  exc_class : string;
  exc_message : string
}.

Definition str (e : Exception) : string := exc_message e.

(** What one consumption of the asynchronous generator meets: messages, then
    [StopAsyncIteration] or a raised exception. *)
Inductive Producer : Type :=
| Exhausted
| Raises (e : Exception)
| Yields (message : Message) (rest : Producer).

(** The producer that yields [ms] and then goes on as [tail]. *)
Fixpoint produce (ms : list Message) (tail : Producer) : Producer :=
  match ms with
  | [] => tail
  | m :: ms' => Yields m (produce ms' tail)
  end.

(** ** Static configuration *)

Record ClaudeAgentOptions : Type := {
  allowed_tools : list string;
  system_prompt : string;
  permission_mode : string;
  max_turns_opt : Z
}.

Module AGENT_CONFIG.
Definition name : string := "Currency Rate Analyst".
Definition role : string :=
  "Financial Data Analyst specializing in currency conversion rates".
Definition tools : list string :=
  ["WebSearch"; "WebFetch"; "Read"; "Write"; "Bash"].
Definition system_prompt : string :=
"You are a Currency Rate Analyst, an expert financial data analyst specializing in currency conversion rates. Your primary responsibility is to gather accurate, real-time exchange rates for major world currencies and present them in well-structured Excel files.

Your core competencies include:
- Researching and retrieving current exchange rates from reliable financial sources
- Identifying major global currencies (USD, EUR, GBP, JPY, CHF, CAD, AUD, CNY, etc.)
- Creating comprehensive conversion matrices showing exchange rates between currency pairs
- Generating Excel files with proper formatting, headers, and data organization
- Providing metadata such as data source, timestamp, and update frequency
- Ensuring data accuracy and presenting rates with appropriate decimal precision

Your workflow:
1. Search for reliable currency exchange rate sources (financial APIs, central banks, forex platforms)
2. Fetch current exchange rates for major currencies
3. Process and organize the data into a structured format
4. Create an Excel file (CSV or use Python/bash tools to generate XLSX format)
5. Include conversion tables, base currency comparisons, and relevant metadata
6. Validate data completeness and accuracy before delivery

Your personality is analytical, detail-oriented, and precise. You present financial data with clarity and professionalism, ensuring users receive accurate and actionable currency information.".
Definition permission_mode : string := "acceptEdits".
End AGENT_CONFIG.

(** ** Request and response models *)

Record QueryRequest : Type := {
  prompt : string;
  max_turns : Z
}.

Record QueryResponse : Type := {
  status : string;
  response : string;
  usage : dict;
  agent_info : dict
}.

(** What a handler hands back to the framework: a body for a 200 response,
    or a raised [HTTPException]. *)
Inductive HTTPResult : Type :=
| Ok200 (body : QueryResponse)
| HTTPException (status_code : Z) (detail : string).

(** The event of one frame: the dict [{type, data, timestamp}] that
    [create_event] builds. *)
Record StreamEvent : Type := {
  type : string;
  data : dict;
  timestamp : string
}.

(** The dict that [create_event] hands to [json.dumps]. *)
Definition event_value (ev : StreamEvent) : pyval :=
  PDict [ ("type", PStr (type ev));
          ("data", PDict (data ev));
          ("timestamp", PStr (timestamp ev)) ].

(** [json.dumps] as the handler meets it.  It gives the text of a value,
    and raises a [RecursionError] when the value nests deeper than the
    recursion limit of the interpreter lets the encoder follow.  The
    events the handler builds from strings, booleans and numbers nest
    three deep (the event, its [data], and the [usage] and [agent_info] of
    a [complete] event); [headroom] is how much deeper than that a value
    may nest before the encoder fails. *)
Record Encoder : Type := {
  headroom : nat;
  json_text : pyval -> string;
  json_error : pyval -> Exception
}.

(** What a handler does, in order. *)
Inductive Action : Type :=
| Yield (event : StreamEvent)
| Query (prompt : string) (options : ClaudeAgentOptions)
| Anext.

(** The frames of a trace, in order. *)
Fixpoint events (tr : list Action) : list StreamEvent :=
  match tr with
  | [] => []
  | Yield ev :: tr' => ev :: events tr'
  | _ :: tr' => events tr'
  end.

(** How often the producer was advanced. *)
Fixpoint advances (tr : list Action) : nat :=
  match tr with
  | [] => 0
  | Anext :: tr' => S (advances tr')
  | _ :: tr' => advances tr'
  end.

(** Whether the producer was created at all. *)
Fixpoint invoked (tr : list Action) : bool :=
  match tr with
  | [] => false
  | Query _ _ :: _ => true
  | _ :: tr' => invoked tr'
  end.

Definition has_type (t : string) (ev : StreamEvent) : bool :=
  String.eqb (type ev) t.

Definition count_type (t : string) (evs : list StreamEvent) : nat :=
  length (filter (has_type t) evs).

Definition terminal (ev : StreamEvent) : bool :=
  has_type "complete" ev || has_type "error" ev.

(** The local variables of a handler, and the number of clock readings made
    so far. *)
Record Locals : Type := {
  response_parts : list string;
  usage_info : option dict;
  clock : nat
}.

Definition initial : Locals :=
  {| response_parts := []; usage_info := None; clock := 0 |}.

Definition append_part (text : string) (l : Locals) : Locals :=
  {| response_parts := response_parts l ++ [text];
     usage_info := usage_info l;
     clock := clock l |}.

Definition set_usage (u : dict) (l : Locals) : Locals :=
  {| response_parts := response_parts l;
     usage_info := Some u;
     clock := clock l |}.

Definition tick (l : Locals) : Locals :=
  {| response_parts := response_parts l;
     usage_info := usage_info l;
     clock := S (clock l) |}.

Definition usage_of (m : ResultFields) : dict :=
  [ ("duration_ms", PInt (duration_ms m));
    ("total_cost_usd", match total_cost_usd m with
                       | Some r => PFloat r
                       | None => PNone
                       end);
    ("num_turns", PInt (num_turns m));
    ("session_id", PStr (session_id m)) ].

Definition agent_info_dict : dict :=
  [ ("name", PStr AGENT_CONFIG.name); ("role", PStr AGENT_CONFIG.role) ].

(** ["\n".join(response_parts) if response_parts else "No response received"] *)
Definition full_response (parts : list string) : string :=
  match parts with
  | [] => "No response received"
  | _ :: _ => String.concat newline parts
  end.

Definition options_for (request : QueryRequest) : ClaudeAgentOptions :=
  {| allowed_tools := AGENT_CONFIG.tools;
     system_prompt := AGENT_CONFIG.system_prompt;
     permission_mode := AGENT_CONFIG.permission_mode;
     max_turns_opt := max_turns request |}.

(** ** The handlers *)

Section Handlers.

(** [now n] is what the [n]-th reading of
    [datetime.datetime.now().isoformat()] returns. *)
Variable now : nat -> string.

(** The SDK's [query(prompt=..., options=...)]: calling it creates the
    generator; nothing of it runs before the first advance. *)
Variable query : string -> ClaudeAgentOptions -> Producer.

(** The interpreter's [json.dumps]. *)
Variable json : Encoder.

(** [json.dumps(v)]: the text of [v], or the [RecursionError] raised when
    [v] nests deeper than the encoder can follow. *)
Definition dumps (v : pyval) : Exception + string :=
  if (depth v <=? 3 + headroom json)%nat then inr (json_text json v)
  else inl (json_error json v).

(** The nested [create_event] reads the clock, builds the event and
    serialises it, which can raise.  The model gives the event where the
    source gives its frame; [sse_frame] is that frame. *)
Definition create_event (event_type : string) (d : dict) (l : Locals)
  : (Exception + StreamEvent) * Locals :=
  let ev := {| type := event_type; data := d; timestamp := now (clock l) |} in
  (match dumps (event_value ev) with
   | inl e => inl e
   | inr _ => inr ev
   end,
   tick l).

Definition sse_frame (ev : StreamEvent) : string :=
  "data: " ++ json_text json (event_value ev) ++ newline ++ newline.

(** *** Streaming mode *)

(** [for block in message.content] of [stream_agent_progress]: the trace,
    and the locals after the blocks or the exception that left the loop. *)
Fixpoint stream_blocks (content : list ContentBlock) (l : Locals)
  : list Action * (Locals + Exception * Locals) :=
  match content with
  | [] => ([], inl l)
  | TextBlock text :: content' =>
      let l1 := append_part text l in
      match create_event "response"
              [ ("content", PStr text);
                ("partial", PBool true);
                ("message", PStr "💭 Agent thinking...") ] l1 with
      | (inl e, l2) => ([], inr (e, l2))
      | (inr ev, l2) =>
          let (tr, r) := stream_blocks content' l2 in
          (Yield ev :: tr, r)
      end
  | ToolUseBlock name input :: content' =>
      match create_event "tool_use"
              [ ("tool", PStr name);
                ("input", PDict input);
                ("message", PStr ("🔧 Using " ++ name ++ " tool..."));
                ("status", PStr "executing") ] l with
      | (inl e, l1) => ([], inr (e, l1))
      | (inr ev, l1) =>
          let (tr, r) := stream_blocks content' l1 in
          (Yield ev :: tr, r)
      end
  | _ :: content' => stream_blocks content' l
  end.

(** [async for message in query(...)] of [stream_agent_progress]: the
    trace of the loop and either the locals after it or the exception
    that left it, with the locals at that point. *)
Fixpoint stream_loop (p : Producer) (l : Locals)
  : list Action * (Locals + Exception * Locals) :=
  match p with
  | Exhausted => ([Anext], inl l)
  | Raises e => ([Anext], inr (e, l))
  | Yields (AssistantMessage content) rest =>
      match stream_blocks content l with
      | (tr1, inl l1) =>
          let (tr2, r) := stream_loop rest l1 in
          (Anext :: tr1 ++ tr2, r)
      | (tr1, inr failure) => (Anext :: tr1, inr failure)
      end
  | Yields (ResultMessage m) _ =>
      ([Anext], inl (set_usage (usage_of m) l))
  | Yields OtherMessage rest =>
      let (tr, r) := stream_loop rest l in
      (Anext :: tr, r)
  end.

(** The [try] block of [stream_agent_progress]: its trace and how it is
    left, at its end or by an exception. *)
Definition stream_try (request : QueryRequest)
  : list Action * (Locals + Exception * Locals) :=
  match create_event "progress"
          [ ("message", PStr "🤖 Starting Currency Rate Analyst...");
            ("agent", PStr AGENT_CONFIG.name);
            ("status", PStr "initializing") ] initial with
  | (inl e, l1) => ([], inr (e, l1))
  | (inr ev1, l1) =>
      let options := options_for request in
      match create_event "progress"
              [ ("message", PStr "📋 Processing your request...");
                ("status", PStr "processing") ] l1 with
      | (inl e, l2) => ([Yield ev1], inr (e, l2))
      | (inr ev2, l2) =>
          let (tr, r) := stream_loop (query (prompt request) options) l2 in
          let before :=
            Yield ev1 :: Yield ev2 :: Query (prompt request) options :: tr in
          match r with
          | inr failure => (before, inr failure)
          | inl l3 =>
              match create_event "complete"
                      [ ("response",
                         PStr (full_response (response_parts l3)));
                        ("usage", PDict (or_empty (usage_info l3)));
                        ("status", PStr "completed");
                        ("message", PStr "✅ Task completed successfully!");
                        ("agent_info", PDict agent_info_dict) ] l3 with
              | (inl e, l4) => (before, inr (e, l4))
              | (inr ev, l4) => ((before ++ [Yield ev])%list, inl l4)
              end
          end
      end
  end.

(** [stream_agent_progress]: the [try] block, and the [except Exception]
    clause, which yields the [error] frame. *)
Definition stream_agent_progress (request : QueryRequest) : list Action :=
  let (tr, r) := stream_try request in
  (tr ++
     match r with
     | inl _ => []
     | inr (e, l) =>
         match create_event "error"
                 [ ("error", PStr (str e));
                   ("message", PStr ("❌ Error: " ++ str e));
                   ("status", PStr "failed") ] l with
         | (inl _, _) => []
         | (inr ev, _) => [Yield ev]
         end
     end)%list.

(** *** Blocking mode *)

(** [for block in message.content] of [query_agent]. *)
Fixpoint query_blocks (content : list ContentBlock) (l : Locals) : Locals :=
  match content with
  | [] => l
  | TextBlock text :: content' => query_blocks content' (append_part text l)
  | _ :: content' => query_blocks content' l
  end.

(** [async for message in query(...)] of [query_agent]. *)
Fixpoint query_loop (p : Producer) (l : Locals)
  : list Action * (Locals + Exception) :=
  match p with
  | Exhausted => ([Anext], inl l)
  | Raises e => ([Anext], inr e)
  | Yields (AssistantMessage content) rest =>
      let (tr, r) := query_loop rest (query_blocks content l) in
      (Anext :: tr, r)
  | Yields (ResultMessage m) _ =>
      ([Anext], inl (set_usage (usage_of m) l))
  | Yields OtherMessage rest =>
      let (tr, r) := query_loop rest l in
      (Anext :: tr, r)
  end.

Definition query_agent (request : QueryRequest) : list Action * HTTPResult :=
  let options := options_for request in
  let (tr, r) := query_loop (query (prompt request) options) initial in
  (Query (prompt request) options :: tr,
   match r with
   | inl l =>
       Ok200 {| status := "success";
                response := full_response (response_parts l);
                usage := or_empty (usage_info l);
                agent_info := agent_info_dict |}
   | inr e =>
       HTTPException 500 ("Agent execution failed: " ++ str e)
   end).

End Handlers.

(** ** The endpoints, with the framework's request validation *)

(** A JSON request body whose fields, where present, have the declared types
    of [QueryRequest]: [prompt: str] and [max_turns: int = 20]. *)
Record Body : Type := {
  body_prompt : option string;
  body_max_turns : option Z
}.

(** Construction of [QueryRequest] from the body: [prompt] is required,
    [max_turns] defaults to 20; the model declares no constraint on the
    values. *)
Definition validate (b : Body) : option QueryRequest :=
  match body_prompt b with
  | None => None
  | Some s =>
      Some {| prompt := s;
              max_turns := match body_max_turns b with
                           | Some n => n
                           | None => 20
                           end |}
  end.

Record StreamingResponse : Type := {
  body_iterator : list Action;
  media_type : string;
  headers : list (string * string)
}.

(** The reply to a POST: the framework's 422 for a body that does not
    validate, else what the handler gives. *)
Inductive Reply (A : Type) : Type :=
| Unprocessable422
| Handled (trace : list Action) (result : A).
Arguments Unprocessable422 {A}.
Arguments Handled {A} trace result.

Definition reply_trace {A : Type} (r : Reply A) : list Action :=
  match r with
  | Unprocessable422 => []
  | Handled tr _ => tr
  end.

(** A reply with a 4xx status. *)
Definition client_error_query (r : Reply HTTPResult) : bool :=
  match r with
  | Unprocessable422 => true
  | Handled _ (HTTPException code _) => (400 <=? code)%Z && (code <? 500)%Z
  | Handled _ (Ok200 _) => false
  end.

Definition client_error_stream (r : Reply StreamingResponse) : bool :=
  match r with
  | Unprocessable422 => true
  | Handled _ _ => false
  end.

Section Endpoints.

Variable now : nat -> string.
Variable query : string -> ClaudeAgentOptions -> Producer.
Variable json : Encoder.

Definition stream_query (request : QueryRequest) : StreamingResponse :=
  {| body_iterator := stream_agent_progress now query json request;
     media_type := "text/event-stream";
     headers := [ ("Cache-Control", "no-cache");
                  ("Connection", "keep-alive");
                  ("Access-Control-Allow-Origin", "*");
                  ("Access-Control-Allow-Methods", "GET, POST, OPTIONS");
                  ("Access-Control-Allow-Headers", "*") ] |}.

Definition post_stream (b : Body) : Reply StreamingResponse :=
  match validate b with
  | None => Unprocessable422
  | Some request =>
      let r := stream_query request in Handled (body_iterator r) r
  end.

Definition post_query (b : Body) : Reply HTTPResult :=
  match validate b with
  | None => Unprocessable422
  | Some request =>
      let (tr, r) := query_agent query request in Handled tr r
  end.

End Endpoints.

(** ** Vocabulary of the specification *)

Definition is_result (m : Message) : bool :=
  match m with
  | ResultMessage _ => true
  | _ => false
  end.

(** No message of [ms] is a [ResultMessage]. *)
Definition no_result (ms : list Message) : bool :=
  forallb (fun m => negb (is_result m)) ms.

Definition is_text (b : ContentBlock) : bool :=
  match b with
  | TextBlock _ => true
  | _ => false
  end.

(** A block whose frame the encoder can serialise when [h] is its
    headroom: every block but a tool use whose [input] nests too deep. *)
Definition fits (h : nat) (b : ContentBlock) : bool :=
  match b with
  | ToolUseBlock _ input => (depth (PDict input) <=? 1 + h)%nat
  | _ => true
  end.

(** Messages all of whose frames can be serialised. *)
Definition serialisable (h : nat) (ms : list Message) : bool :=
  forallb (fun m => match m with
                    | AssistantMessage content => forallb (fits h) content
                    | _ => true
                    end) ms.


(** The contents of the [TextBlock]s, in order. *)
Fixpoint texts_of (content : list ContentBlock) : list string :=
  match content with
  | [] => []
  | TextBlock text :: content' => text :: texts_of content'
  | _ :: content' => texts_of content'
  end.

Definition message_texts (m : Message) : list string :=
  match m with
  | AssistantMessage content => texts_of content
  | _ => []
  end.

Definition texts (ms : list Message) : list string :=
  flat_map message_texts ms.

(** The classifier of the specification: the event candidates of a block
    and of a message, as type and payload. *)
Definition classify_block (b : ContentBlock) : list (string * dict) :=
  match b with
  | TextBlock text =>
      [ ("response",
         [ ("content", PStr text);
           ("partial", PBool true);
           ("message", PStr "💭 Agent thinking...") ]) ]
  | ToolUseBlock name input =>
      [ ("tool_use",
         [ ("tool", PStr name);
           ("input", PDict input);
           ("message", PStr ("🔧 Using " ++ name ++ " tool..."));
           ("status", PStr "executing") ]) ]
  | _ => []
  end.

Definition classify (m : Message) : list (string * dict) :=
  match m with
  | AssistantMessage content => flat_map classify_block content
  | _ => []
  end.

Definition candidates (ms : list Message) : list (string * dict) :=
  flat_map classify ms.

Definition tool_use_data (name : string) (input : dict) : dict :=
  [ ("tool", PStr name);
    ("input", PDict input);
    ("message", PStr ("🔧 Using " ++ name ++ " tool..."));
    ("status", PStr "executing") ].

(** The [error] event for a tool-use frame that could not be serialised:
    it carries what the encoder raised for the frame made at clock reading
    [n], and is made at the next reading. *)
Definition encoder_error_event (now : nat -> string) (json : Encoder)
    (name : string) (input : dict) (n : nat) : StreamEvent :=
  {| type := "error";
     data := [ ("error",
                PStr (str (json_error json
                             (event_value
                                {| type := "tool_use";
                                   data := tool_use_data name input;
                                   timestamp := now n |}))));
               ("message",
                PStr ("❌ Error: "
                        ++ str (json_error json
                                  (event_value
                                     {| type := "tool_use";
                                        data := tool_use_data name input;
                                        timestamp := now n |}))));
               ("status", PStr "failed") ];
     timestamp := now (S n) |}.

Definition starting_data : dict :=
  [ ("message", PStr "🤖 Starting Currency Rate Analyst...");
    ("agent", PStr AGENT_CONFIG.name);
    ("status", PStr "initializing") ].

Definition processing_data : dict :=
  [ ("message", PStr "📋 Processing your request...");
    ("status", PStr "processing") ].

Definition complete_data (resp : string) (u : dict) : dict :=
  [ ("response", PStr resp);
    ("usage", PDict u);
    ("status", PStr "completed");
    ("message", PStr "✅ Task completed successfully!");
    ("agent_info", PDict agent_info_dict) ].

Definition error_data (m : string) : dict :=
  [ ("error", PStr m);
    ("message", PStr ("❌ Error: " ++ m));
    ("status", PStr "failed") ].

Definition success_body (resp : string) (u : dict) : QueryResponse :=
  {| status := "success"; response := resp; usage := u;
     agent_info := agent_info_dict |}.

Section Stamping.

Variable now : nat -> string.

(** The candidates [cs] as events, the first one at clock reading [n]. *)
Fixpoint stamp (n : nat) (cs : list (string * dict)) : list StreamEvent :=
  match cs with
  | [] => []
  | (t, d) :: cs' =>
      {| type := t; data := d; timestamp := now n |} :: stamp (S n) cs'
  end.

(** What the loop does for messages [ms], none of them a result. *)
Fixpoint message_trace (n : nat) (ms : list Message) : list Action :=
  match ms with
  | [] => []
  | m :: ms' =>
      Anext :: map Yield (stamp n (classify m))
        ++ message_trace (n + length (classify m)) ms'
  end.

Definition startup : list StreamEvent :=
  stamp 0 [ ("progress", starting_data); ("progress", processing_data) ].

End Stamping.

(** ** Further vocabulary for the statements *)

Open Scope list_scope.

(** The locals after [parts] were appended and [k] events were made. *)
Definition advanced (l : Locals) (parts : list string) (k : nat) : Locals :=
  {| response_parts := response_parts l ++ parts;
     usage_info := usage_info l;
     clock := clock l + k |}.

(** The terminal events after the messages [ms]. *)
Definition complete_event (now : nat -> string) (ms : list Message) (u : dict)
  : StreamEvent :=
  {| type := "complete";
     data := complete_data (full_response (texts ms)) u;
     timestamp := now (2 + length (candidates ms)) |}.

Definition error_event (now : nat -> string) (ms : list Message)
    (e : Exception) : StreamEvent :=
  {| type := "error";
     data := error_data (str e);
     timestamp := now (2 + length (candidates ms)) |}.

(** Every producer is a run of messages without a result, closed by
    exhaustion, an exception, or the first result. *)
Inductive Closing : Producer -> Prop :=
| closing_exhausted : Closing Exhausted
| closing_raises e : Closing (Raises e)
| closing_result m rest : Closing (Yields (ResultMessage m) rest).


(** ** Sample data *)

Definition sample_now (n : nat) : string :=
  ("2026-01-11T18:59:07.00000" ++ String (ascii_of_nat (48 + n)) "")%string.

Definition sample_request : QueryRequest :=
  {| prompt := "rates for USD/EUR"; max_turns := 20 |}.

Definition sample_result : ResultFields :=
  {| duration_ms := 1200; total_cost_usd := Some "0.01"%string;
     num_turns := 1; session_id := "abc" |}.

(** An encoder with the default recursion limit of 1000. *)
Definition sample_json : Encoder :=
  {| headroom := 997;
     json_text := fun _ => "{}"%string;
     json_error := fun _ =>
       {| exc_class := "RecursionError";
          exc_message :=
            "maximum recursion depth exceeded while encoding a JSON object" |} |}.

(** A dict inside a dict, [n] times. *)
Fixpoint nested (n : nat) : dict :=
  match n with
  | 0 => []
  | S n' => [("k"%string, PDict (nested n'))]
  end.

Definition timeout_error : Exception :=
  {| exc_class := "ConnectionError"; exc_message := "timeout" |}.

Definition sample_messages : list Message :=
  [ AssistantMessage [TextBlock "EUR=0.92"];
    AssistantMessage [TextBlock "GBP=0.79"; TextBlock "JPY=151.2"] ].


(** A producer, whatever the prompt and the options. *)
Definition always (p : Producer) : string -> ClaudeAgentOptions -> Producer :=
  fun _ _ => p.

Definition result_only : Producer :=
  Yields (ResultMessage sample_result) Exhausted.






Definition texts_then_failure : Producer :=
  produce sample_messages (Raises timeout_error).






Definition body_without_prompt : Body :=
  {| body_prompt := None; body_max_turns := Some 5%Z |}.

Definition body_empty_prompt : Body :=
  {| body_prompt := Some ""%string; body_max_turns := Some 0%Z |}.

(** ** The static endpoints *)

(** [GET /]. *)
Definition root : dict :=
  [ ("message", PStr "Welcome to Currency Rate Analyst");
    ("role",
     PStr "Financial Data Analyst specializing in currency conversion rates");
    ("agent_id", PStr "ui_user_2e538485");
    ("endpoints",
     PList [ PStr "/query - POST: Send a task to the agent";
             PStr "/stream - POST: Stream agent progress in real-time";
             PStr "/info - GET: Get agent information";
             PStr "/health - GET: Check service health" ]) ].

(** [GET /info]. *)
Definition get_agent_info : dict :=
  [ ("agent_id", PStr "ui_user_2e538485");
    ("name", PStr AGENT_CONFIG.name);
    ("role", PStr AGENT_CONFIG.role);
    ("tools", PList (map PStr AGENT_CONFIG.tools));
    ("status", PStr "active");
    ("features", PList [PStr "streaming"; PStr "real-time_progress"]) ].

(** [GET /health]. *)
Definition health_check : dict :=
  [ ("status", PStr "healthy"); ("agent", PStr "Currency Rate Analyst") ].

(** ** Vocabulary for what a handler consumes and a client reads *)

(** The messages a handler takes from a producer: those before the first
    result message, the exception or the end. *)
Fixpoint consumed (p : Producer) : list Message :=
  match p with
  | Yields (ResultMessage _) _ => []
  | Yields m rest => m :: consumed rest
  | Exhausted => []
  | Raises _ => []
  end.


(** The creations of a producer in a trace, with their arguments. *)
Fixpoint calls (tr : list Action) : list (string * ClaudeAgentOptions) :=
  match tr with
  | [] => []
  | Query p o :: tr' => (p, o) :: calls tr'
  | _ :: tr' => calls tr'
  end.

(** The producer without what the blocking handler does not look at: blocks
    that are not text blocks and messages of other kinds, up to the first
    result message. *)
Fixpoint strip (p : Producer) : Producer :=
  match p with
  | Yields (AssistantMessage content) rest =>
      Yields (AssistantMessage (filter is_text content)) (strip rest)
  | Yields OtherMessage rest => strip rest
  | Yields (ResultMessage m) rest => Yields (ResultMessage m) rest
  | Exhausted => Exhausted
  | Raises e => Raises e
  end.

(** The tool uses of blocks and of messages, in order. *)
Fixpoint tool_uses_of (content : list ContentBlock) : list (string * dict) :=
  match content with
  | [] => []
  | ToolUseBlock name input :: content' => (name, input) :: tool_uses_of content'
  | _ :: content' => tool_uses_of content'
  end.

Definition tool_uses (ms : list Message) : list (string * dict) :=
  flat_map (fun m => match m with
                     | AssistantMessage content => tool_uses_of content
                     | _ => []
                     end) ms.




Definition event_types : list string :=
  ["progress"; "tool_use"; "response"; "complete"; "error"]%string.

(** ** The handlers on small inputs *)

(** The blocking scenario of the specification. *)
Example query_agent_scenario :
  query_agent
    (always (Yields (AssistantMessage [TextBlock "EUR=0.92"]) result_only))
    sample_request
  = ([ Query "rates for USD/EUR" (options_for sample_request);
       Anext; Anext ],
     Ok200 {| status := "success";
              response := "EUR=0.92";
              usage := [ ("duration_ms", PInt 1200);
                         ("total_cost_usd", PFloat "0.01");
                         ("num_turns", PInt 1);
                         ("session_id", PStr "abc") ];
              agent_info :=
                [ ("name", PStr "Currency Rate Analyst");
                  ("role",
                   PStr "Financial Data Analyst specializing in currency conversion rates") ] |}).
Proof. reflexivity. Qed.

(** A tool call, two texts in one message, then exhaustion. *)
Example stream_agent_progress_trace :
  stream_agent_progress sample_now
    (always
       (Yields (AssistantMessage [ToolUseBlock "WebFetch" []; ToolResultBlock "t1"])
          (Yields (AssistantMessage [TextBlock "a"; TextBlock "b"]) Exhausted)))
    sample_json sample_request
  = [ Yield {| type := "progress"; data := starting_data;
               timestamp := sample_now 0 |};
      Yield {| type := "progress"; data := processing_data;
               timestamp := sample_now 1 |};
      Query "rates for USD/EUR" (options_for sample_request);
      Anext;
      Yield {| type := "tool_use";
               data := [ ("tool", PStr "WebFetch");
                         ("input", PDict []);
                         ("message", PStr "🔧 Using WebFetch tool...");
                         ("status", PStr "executing") ];
               timestamp := sample_now 2 |};
      Anext;
      Yield {| type := "response";
               data := [ ("content", PStr "a");
                         ("partial", PBool true);
                         ("message", PStr "💭 Agent thinking...") ];
               timestamp := sample_now 3 |};
      Yield {| type := "response";
               data := [ ("content", PStr "b");
                         ("partial", PBool true);
                         ("message", PStr "💭 Agent thinking...") ];
               timestamp := sample_now 4 |};
      Anext;
      Yield {| type := "complete";
               data := complete_data ("a" ++ newline ++ "b") [];
               timestamp := sample_now 5 |} ].
Proof. vm_compute. reflexivity. Qed.

(** A tool input that nests a thousand deep, between two texts: the frame
    of the tool use cannot be serialised, the text after it is never
    streamed, the producer is not advanced again, and the clock reading of
    the lost frame is spent. *)
Example stream_agent_progress_deep_input :
  stream_agent_progress sample_now
    (always
       (Yields (AssistantMessage [ TextBlock "before";
                                   ToolUseBlock "Write" (nested 1000);
                                   TextBlock "after" ])
          (Yields (ResultMessage sample_result) Exhausted)))
    sample_json sample_request
  = [ Yield {| type := "progress"; data := starting_data;
               timestamp := sample_now 0 |};
      Yield {| type := "progress"; data := processing_data;
               timestamp := sample_now 1 |};
      Query "rates for USD/EUR" (options_for sample_request);
      Anext;
      Yield {| type := "response";
               data := [ ("content", PStr "before");
                         ("partial", PBool true);
                         ("message", PStr "💭 Agent thinking...") ];
               timestamp := sample_now 2 |};
      Yield {| type := "error";
               data := error_data
                 "maximum recursion depth exceeded while encoding a JSON object";
               timestamp := sample_now 4 |} ].
Proof. vm_compute. reflexivity. Qed.

(** A failure after a text was gathered. *)
Example query_agent_failure :
  snd (query_agent
         (always (Yields (AssistantMessage [TextBlock "EUR=0.92"])
                    (Raises timeout_error)))
         sample_request)
  = HTTPException 500 "Agent execution failed: timeout".
Proof. reflexivity. Qed.

(** ** Traces, counts and stamps *)

Lemma events_app (a b : list Action) : events (a ++ b) = events a ++ events b.
Proof.
  induction a as [|x a IH]; simpl; [reflexivity|].
  destruct x; simpl; rewrite IH; reflexivity.
Qed.

Lemma events_yields (evs : list StreamEvent) : events (map Yield evs) = evs.
Proof. induction evs as [|ev evs IH]; simpl; congruence. Qed.

Lemma advances_app (a b : list Action) :
  advances (a ++ b) = advances a + advances b.
Proof.
  induction a as [|x a IH]; simpl; [reflexivity|].
  destruct x; simpl; rewrite IH; reflexivity.
Qed.

Lemma advances_yields (evs : list StreamEvent) : advances (map Yield evs) = 0.
Proof. induction evs as [|ev evs IH]; simpl; congruence. Qed.

Lemma count_type_app (t : string) (a b : list StreamEvent) :
  count_type t (a ++ b) = count_type t a + count_type t b.
Proof. unfold count_type. rewrite filter_app, length_app. reflexivity. Qed.

Section StampFacts.

Variable now : nat -> string.

Lemma stamp_app (n : nat) (a b : list (string * dict)) :
  stamp now n (a ++ b) = stamp now n a ++ stamp now (n + length a) b.
Proof.
  revert n. induction a as [|[t d] a IH]; intros n; simpl.
  - rewrite Nat.add_0_r. reflexivity.
  - rewrite IH. do 3 f_equal. lia.
Qed.

(** A stamped candidate list has the types of its candidates. *)
Lemma stamp_count (t : string) (n : nat) (cs : list (string * dict)) :
  count_type t (stamp now n cs)
  = length (filter (fun c => String.eqb (fst c) t) cs).
Proof.
  revert n. induction cs as [|[t' d] cs IH]; intros n; [reflexivity|].
  unfold count_type in *. simpl. unfold has_type at 1. simpl.
  destruct (String.eqb t' t); simpl; rewrite IH; reflexivity.
Qed.

Lemma events_message_trace (n : nat) (ms : list Message) :
  events (message_trace now n ms) = stamp now n (candidates ms).
Proof.
  revert n. induction ms as [|m ms IH]; intros n; [reflexivity|].
  simpl. rewrite events_app, events_yields, IH.
  unfold candidates. simpl. rewrite stamp_app. reflexivity.
Qed.

Lemma advances_message_trace (n : nat) (ms : list Message) :
  advances (message_trace now n ms) = length ms.
Proof.
  revert n. induction ms as [|m ms IH]; intros n; [reflexivity|].
  simpl. rewrite advances_app, advances_yields, IH. reflexivity.
Qed.

End StampFacts.

(** The candidates of messages are [response] and [tool_use] candidates. *)
Lemma classify_block_types (b : ContentBlock) (t : string) :
  t <> "response" -> t <> "tool_use" ->
  filter (fun c : string * dict => String.eqb (fst c) t) (classify_block b) = [].
Proof.
  intros Hr Ht. destruct b; cbn [classify_block filter fst]; try reflexivity.
  - rewrite (proj2 (String.eqb_neq "response" t)); congruence.
  - rewrite (proj2 (String.eqb_neq "tool_use" t)); congruence.
Qed.

Lemma candidates_types (ms : list Message) (t : string) :
  t <> "response" -> t <> "tool_use" ->
  filter (fun c : string * dict => String.eqb (fst c) t) (candidates ms) = [].
Proof.
  intros Hr Ht. unfold candidates.
  induction ms as [|m ms IH]; simpl; [reflexivity|].
  rewrite filter_app, IH, app_nil_r.
  destruct m as [content| |]; simpl; try reflexivity.
  induction content as [|b content IHc]; simpl; [reflexivity|].
  rewrite filter_app, IHc, classify_block_types; auto.
Qed.


Lemma calls_app (a b : list Action) : calls (a ++ b) = calls a ++ calls b.
Proof.
  induction a as [|x a IH]; simpl; [reflexivity|].
  destruct x; simpl; rewrite IH; reflexivity.
Qed.

Lemma calls_yields (evs : list StreamEvent) : calls (map Yield evs) = [].
Proof. induction evs as [|ev evs IH]; simpl; auto. Qed.

Lemma calls_repeat (n : nat) : calls (repeat Anext n) = [].
Proof. induction n; simpl; auto. Qed.

Lemma calls_message_trace (now : nat -> string) (n : nat) (ms : list Message) :
  calls (message_trace now n ms) = [].
Proof.
  revert n. induction ms as [|m ms IH]; intros n; [reflexivity|].
  cbn [message_trace calls]. rewrite calls_app, calls_yields, IH. reflexivity.
Qed.

Lemma stamp_length (now : nat -> string) (n : nat)
    (cs : list (string * dict)) :
  length (stamp now n cs) = length cs.
Proof.
  revert n. induction cs as [|[t d] cs IH]; intros n; simpl; auto.
Qed.

(** ** The encoder on the frames of the handler *)

Section EncoderFacts.

Variable now : nat -> string.
Variable json : Encoder.

Lemma create_event_fits (event_type : string) (d : dict) (l : Locals) :
  depth (PDict d) <= 2 + headroom json ->
  create_event now json event_type d l
  = (inr {| type := event_type; data := d; timestamp := now (clock l) |},
     tick l).
Proof.
  intros H. unfold create_event, dumps.
  replace (depth (event_value
                    {| type := event_type; data := d;
                       timestamp := now (clock l) |}))
    with (S (depth (PDict d))).
  - destruct (Nat.leb_spec (S (depth (PDict d))) (3 + headroom json));
      [reflexivity | lia].
  - cbn [event_value depth type data timestamp]. lia.
Qed.

Lemma create_event_deep (event_type : string) (d : dict) (l : Locals) :
  2 + headroom json < depth (PDict d) ->
  create_event now json event_type d l
  = (inl (json_error json
            (event_value {| type := event_type; data := d;
                            timestamp := now (clock l) |})),
     tick l).
Proof.
  intros H. unfold create_event, dumps.
  replace (depth (event_value
                    {| type := event_type; data := d;
                       timestamp := now (clock l) |}))
    with (S (depth (PDict d))).
  - destruct (Nat.leb_spec (S (depth (PDict d))) (3 + headroom json));
      [lia | reflexivity].
  - cbn [event_value depth type data timestamp]. lia.
Qed.

Lemma tool_use_depth (name : string) (input : dict) :
  depth (PDict [ ("tool", PStr name);
                 ("input", PDict input);
                 ("message", PStr ("🔧 Using " ++ name ++ " tool..."));
                 ("status", PStr "executing") ])
  = S (depth (PDict input)).
Proof.
  change (depth (PDict [ ("tool", PStr name);
                         ("input", PDict input);
                         ("message", PStr ("🔧 Using " ++ name ++ " tool..."));
                         ("status", PStr "executing") ]))
    with (S (Nat.max 0 (Nat.max (depth (PDict input)) (Nat.max 0 (Nat.max 0 0))))).
  lia.
Qed.

Lemma complete_depth (resp : string) (u : dict) :
  depth (PDict u) <= 1 ->
  depth (PDict (complete_data resp u)) <= 2.
Proof.
  intros H.
  change (depth (PDict (complete_data resp u)))
    with (S (Nat.max 0 (Nat.max (depth (PDict u))
                          (Nat.max 0 (Nat.max 0 (Nat.max 1 0)))))).
  lia.
Qed.

Lemma usage_depth (m : ResultFields) : depth (PDict (usage_of m)) = 1.
Proof. destruct m as [d [c|] n s]; reflexivity. Qed.

End EncoderFacts.

(** ** The loops on a run of messages *)

Lemma advanced_nil (l : Locals) : advanced l [] 0 = l.
Proof.
  destruct l; unfold advanced; simpl.
  rewrite app_nil_r, Nat.add_0_r. reflexivity.
Qed.

Lemma advanced_advanced (l : Locals) (a b : list string) (j k : nat) :
  advanced (advanced l a j) b k = advanced l (a ++ b) (j + k).
Proof.
  unfold advanced; simpl. rewrite <- app_assoc, Nat.add_assoc. reflexivity.
Qed.

Section Loops.

Variable now : nat -> string.
Variable json : Encoder.

(** The block loop when every frame can be serialised. *)
Lemma stream_blocks_spec (content : list ContentBlock) (l : Locals) :
  forallb (fits (headroom json)) content = true ->
  stream_blocks now json content l
  = (map Yield (stamp now (clock l) (flat_map classify_block content)),
     inl (advanced l (texts_of content)
            (length (flat_map classify_block content)))).
Proof.
  revert l. induction content as [|b content IH]; intros l H.
  - simpl. rewrite advanced_nil. reflexivity.
  - cbn [forallb] in H. apply andb_prop in H. destruct H as [Hb H].
    destruct b as [text|name input|id|]; cbn [stream_blocks].
    + rewrite create_event_fits by (cbn; lia). rewrite (IH _ H).
      cbn [flat_map classify_block texts_of app stamp map length].
      f_equal. f_equal. unfold advanced, tick, append_part; simpl.
      rewrite <- app_assoc. f_equal. lia.
    + cbn [fits] in Hb. apply Nat.leb_le in Hb.
      rewrite create_event_fits by (rewrite tool_use_depth; lia).
      rewrite (IH _ H).
      cbn [flat_map classify_block texts_of app stamp map length].
      f_equal. f_equal. unfold advanced, tick; simpl. f_equal. lia.
    + apply (IH _ H).
    + apply (IH _ H).
Qed.

Lemma query_blocks_spec (content : list ContentBlock) (l : Locals) :
  query_blocks content l = advanced l (texts_of content) 0.
Proof.
  revert l. induction content as [|b content IH]; intros l.
  - simpl. rewrite advanced_nil. reflexivity.
  - destruct b; cbn [query_blocks texts_of]; rewrite IH; try reflexivity.
    unfold advanced, append_part; simpl. rewrite <- app_assoc. reflexivity.
Qed.

(** The streaming loop on messages [ms] without a result and with frames
    that can all be serialised, whatever follows them. *)
Lemma stream_loop_produce (ms : list Message) (tail : Producer) (l : Locals) :
  no_result ms = true ->
  serialisable (headroom json) ms = true ->
  stream_loop now json (produce ms tail) l
  = (message_trace now (clock l) ms
       ++ fst (stream_loop now json tail
                 (advanced l (texts ms) (length (candidates ms)))),
     snd (stream_loop now json tail
            (advanced l (texts ms) (length (candidates ms))))).
Proof.
  revert l. induction ms as [|m ms IH]; intros l H Hfit.
  - simpl. rewrite advanced_nil.
    destruct (stream_loop now json tail l); reflexivity.
  - simpl in H. apply andb_prop in H. destruct H as [Hm H].
    cbn [serialisable forallb] in Hfit. apply andb_prop in Hfit.
    destruct Hfit as [Sm Hfit].
    destruct m as [content|r|]; [| discriminate |].
    + cbn [produce stream_loop]. rewrite stream_blocks_spec by exact Sm.
      rewrite (IH _ H Hfit).
      rewrite advanced_advanced.
      cbn [message_trace classify texts candidates flat_map message_texts].
      rewrite length_app, <- app_comm_cons, <- app_assoc. reflexivity.
    + cbn [produce stream_loop]. rewrite (IH _ H Hfit).
      cbn [message_trace classify texts candidates flat_map message_texts
           map stamp app length].
      rewrite Nat.add_0_r. reflexivity.
Qed.

(** The blocking loop on a run without a result. *)
Lemma query_loop_produce (ms : list Message) (tail : Producer) (l : Locals) :
  no_result ms = true ->
  query_loop (produce ms tail) l
  = (repeat Anext (length ms)
       ++ fst (query_loop tail (advanced l (texts ms) 0)),
     snd (query_loop tail (advanced l (texts ms) 0))).
Proof.
  revert l. induction ms as [|m ms IH]; intros l H.
  - simpl. rewrite advanced_nil. destruct (query_loop tail l); reflexivity.
  - simpl in H. apply andb_prop in H. destruct H as [Hm H].
    destruct m as [content|r|]; [| discriminate |].
    + cbn [produce query_loop]. rewrite query_blocks_spec, (IH _ H).
      rewrite advanced_advanced. reflexivity.
    + cbn [produce query_loop]. rewrite (IH _ H). reflexivity.
Qed.

End Loops.



(** ** The handlers on a run of messages and each way it can close *)

Section Runs.

Variable now : nat -> string.
Variable query : string -> ClaudeAgentOptions -> Producer.
Variable json : Encoder.
Variable request : QueryRequest.
Variable ms : list Message.
Hypothesis ms_no_result : no_result ms = true.
Hypothesis ms_serialisable : serialisable (headroom json) ms = true.

Let created : Producer := query (prompt request) (options_for request).
Let call : Action := Query (prompt request) (options_for request).

Lemma stream_exhausted :
  created = produce ms Exhausted ->
  stream_agent_progress now query json request
  = map Yield (startup now) ++ call :: message_trace now 2 ms
      ++ [Anext; Yield (complete_event now ms [])].
Proof.
  unfold created, call. intros H.
  unfold stream_agent_progress, stream_try.
  rewrite !create_event_fits by (cbn; lia).
  rewrite H, stream_loop_produce by assumption.
  cbn [stream_loop fst snd].
  rewrite create_event_fits by (apply Nat.le_trans with 2;
                                [apply complete_depth; cbn; lia | lia]).
  cbn -[message_trace candidates texts full_response].
  rewrite app_nil_r, <- app_assoc. reflexivity.
Qed.

Lemma stream_result (m : ResultFields) (rest : Producer) :
  created = produce ms (Yields (ResultMessage m) rest) ->
  stream_agent_progress now query json request
  = map Yield (startup now) ++ call :: message_trace now 2 ms
      ++ [Anext; Yield (complete_event now ms (usage_of m))].
Proof.
  unfold created, call. intros H.
  unfold stream_agent_progress, stream_try.
  rewrite !create_event_fits by (cbn; lia).
  rewrite H, stream_loop_produce by assumption.
  cbn [stream_loop fst snd].
  rewrite create_event_fits
    by (apply Nat.le_trans with 2;
        [apply complete_depth; cbn [set_usage usage_info or_empty usage_of];
         rewrite <- (usage_depth m); reflexivity | lia]).
  cbn -[message_trace candidates texts full_response usage_of].
  rewrite app_nil_r, <- app_assoc. reflexivity.
Qed.

Lemma stream_raises (e : Exception) :
  created = produce ms (Raises e) ->
  stream_agent_progress now query json request
  = map Yield (startup now) ++ call :: message_trace now 2 ms
      ++ [Anext; Yield (error_event now ms e)].
Proof.
  unfold created, call. intros H.
  unfold stream_agent_progress, stream_try.
  rewrite !create_event_fits by (cbn; lia).
  rewrite H, stream_loop_produce by assumption.
  cbn [stream_loop fst snd].
  rewrite create_event_fits by (cbn; lia).
  cbn -[message_trace candidates texts full_response].
  rewrite <- app_assoc. reflexivity.
Qed.

Lemma query_exhausted :
  created = produce ms Exhausted ->
  query_agent query request
  = (call :: repeat Anext (length ms) ++ [Anext],
     Ok200 (success_body (full_response (texts ms)) [])).
Proof.
  unfold created, call. intros H.
  unfold query_agent. rewrite H, query_loop_produce by assumption.
  reflexivity.
Qed.

Lemma query_result (m : ResultFields) (rest : Producer) :
  created = produce ms (Yields (ResultMessage m) rest) ->
  query_agent query request
  = (call :: repeat Anext (length ms) ++ [Anext],
     Ok200 (success_body (full_response (texts ms)) (usage_of m))).
Proof.
  unfold created, call. intros H.
  unfold query_agent. rewrite H, query_loop_produce by assumption.
  reflexivity.
Qed.

Lemma query_raises (e : Exception) :
  created = produce ms (Raises e) ->
  query_agent query request
  = (call :: repeat Anext (length ms) ++ [Anext],
     HTTPException 500 ("Agent execution failed: " ++ str e)).
Proof.
  unfold created, call. intros H.
  unfold query_agent. rewrite H, query_loop_produce by assumption.
  reflexivity.
Qed.

End Runs.

(** ** Events of a run *)

Section RunEvents.

Variable now : nat -> string.


Lemma stamp_types (n : nat) (cs : list (string * dict)) (ev : StreamEvent) :
  In ev (stamp now n cs) -> exists c, In c cs /\ type ev = fst c.
Proof.
  revert n. induction cs as [|[t d] cs IH]; intros n; simpl; [tauto|].
  intros [<- | H].
  - exists (t, d). auto.
  - destruct (IH _ H) as (c & Hc & Ht). exists c. auto.
Qed.

Lemma candidates_in (ms : list Message) (c : string * dict) :
  In c (candidates ms) -> fst c = "response" \/ fst c = "tool_use".
Proof.
  unfold candidates. rewrite in_flat_map. intros (m & _ & H).
  destruct m as [content| |]; simpl in H; try tauto.
  rewrite in_flat_map in H. destruct H as (b & _ & H).
  destruct b; simpl in H; try tauto; destruct H as [<- | []]; auto.
Qed.

(** No event made in the loop is a terminal event or a progress event. *)
Lemma stamp_candidates_type (n : nat) (ms : list Message) (ev : StreamEvent) :
  In ev (stamp now n (candidates ms)) ->
  type ev = "response" \/ type ev = "tool_use".
Proof.
  intros H. destruct (stamp_types _ _ _ H) as (c & Hc & ->).
  eapply candidates_in; eassumption.
Qed.

Lemma stamp_candidates_not_terminal (n : nat) (ms : list Message) :
  forallb (fun ev => negb (terminal ev)) (stamp now n (candidates ms)) = true.
Proof.
  apply forallb_forall. intros ev H.
  unfold terminal, has_type.
  destruct (stamp_candidates_type _ _ _ H) as [-> | ->]; reflexivity.
Qed.

Lemma stamp_candidates_count (t : string) (n : nat) (ms : list Message) :
  t <> "response" -> t <> "tool_use" ->
  count_type t (stamp now n (candidates ms)) = 0.
Proof.
  intros Hr Ht. rewrite stamp_count, candidates_types by assumption.
  reflexivity.
Qed.


End RunEvents.


Lemma full_response_joined (parts : list string) :
  parts <> [] -> full_response parts = String.concat newline parts.
Proof. destruct parts; [congruence | reflexivity]. Qed.


Lemma filter_none {A : Type} (f : A -> bool) (l : list A) :
  forallb (fun x => negb (f x)) l = true -> filter f l = [].
Proof.
  induction l as [|x l IH]; simpl; [reflexivity|].
  destruct (f x); simpl; [discriminate | exact IH].
Qed.



(** ** The streaming handler when a frame cannot be serialised *)

Section Failure.

Variable now : nat -> string.
Variable json : Encoder.

(** The block loop on blocks of which one does not fit: the frames of the
    blocks before it, and the error of the encoder; the reading of the
    clock made for the lost frame is spent. *)
Lemma stream_blocks_deep (content : list ContentBlock) (l : Locals) :
  forallb (fits (headroom json)) content = false ->
  exists evs rest name input l',
    stream_blocks now json content l
    = (map Yield evs,
       inr (json_error json
              (event_value {| type := "tool_use";
                              data := tool_use_data name input;
                              timestamp := now (clock l + length evs) |}),
            l'))
    /\ stamp now (clock l) (flat_map classify_block content) = evs ++ rest
    /\ clock l' = S (clock l + length evs)
    /\ 1 + headroom json < depth (PDict input)
    /\ In (name, input) (tool_uses_of content).
Proof.
  revert l. induction content as [|b content IH]; intros l H;
    [discriminate H|].
  cbn [forallb] in H.
  destruct b as [text|name input|id|]; cbn [fits] in H.
  - cbn [stream_blocks]. rewrite create_event_fits by (cbn; lia).
    destruct (IH (tick (append_part text l)) H)
      as (evs & rest & name & input & l' & Hs & Hp & Hc & Hd & Hin).
    rewrite Hs.
    exists ({| type := "response";
               data := [ ("content", PStr text); ("partial", PBool true);
                         ("message", PStr "💭 Agent thinking...") ];
               timestamp := now (clock l) |} :: evs), rest, name, input, l'.
    cbn [clock tick append_part length map] in *.
    replace (clock l + S (length evs)) with (S (clock l + length evs)) by lia.
    split; [reflexivity|].
    split; [|split; [lia | split; [exact Hd | cbn [tool_uses_of In]; auto]]].
    cbn [flat_map classify_block app stamp]. rewrite Hp. reflexivity.
  - destruct (Nat.leb_spec (depth (PDict input)) (1 + headroom json))
      as [Hfit | Hdeep].
    + cbn [andb] in H. cbn [stream_blocks].
      rewrite create_event_fits by (rewrite tool_use_depth; lia).
      destruct (IH (tick l) H)
        as (evs & rest & name' & input' & l' & Hs & Hp & Hc & Hd & Hin).
      rewrite Hs.
      exists ({| type := "tool_use"; data := tool_use_data name input;
                 timestamp := now (clock l) |} :: evs),
             rest, name', input', l'.
      cbn [clock tick length map] in *.
      replace (clock l + S (length evs)) with (S (clock l + length evs))
        by lia.
      split; [reflexivity|].
    split; [|split; [lia | split; [exact Hd | cbn [tool_uses_of In]; auto]]].
      cbn [flat_map classify_block app stamp]. rewrite Hp. reflexivity.
    + cbn [stream_blocks].
      rewrite create_event_deep by (rewrite tool_use_depth; lia).
      exists [], (stamp now (clock l)
                    (flat_map classify_block (ToolUseBlock name input :: content))),
             name, input, (tick l).
      cbn [length map app clock tick]. rewrite Nat.add_0_r.
      split; [reflexivity|]. split; [reflexivity|].
      split; [lia|]. split; [exact Hdeep | left; reflexivity].
  - cbn [andb] in H. cbn [stream_blocks].
    destruct (IH l H) as (evs & rest & name & input & l' & Hs & Hp & Hc & Hd & Hin).
    exists evs, rest, name, input, l'. repeat split; assumption.
  - cbn [andb] in H. cbn [stream_blocks].
    destruct (IH l H) as (evs & rest & name & input & l' & Hs & Hp & Hc & Hd & Hin).
    exists evs, rest, name, input, l'. repeat split; assumption.
Qed.

(** The message loop on messages of which one holds a block that does not
    fit: the loop is left at that block, whatever follows the messages, and
    the producer is advanced only as far as the message of the block. *)
Lemma stream_loop_deep (ms : list Message) (l : Locals) :
  no_result ms = true ->
  serialisable (headroom json) ms = false ->
  exists tr rest name input l',
    (forall tail,
       stream_loop now json (produce ms tail) l
       = (Anext :: tr,
          inr (json_error json
                 (event_value
                    {| type := "tool_use";
                       data := tool_use_data name input;
                       timestamp := now (clock l + length (events tr)) |}),
               l')))
    /\ stamp now (clock l) (candidates ms) = events tr ++ rest
    /\ clock l' = S (clock l + length (events tr))
    /\ calls tr = []
    /\ advances tr < length ms
    /\ 1 + headroom json < depth (PDict input)
    /\ In (name, input) (tool_uses ms).
Proof.
  revert l. induction ms as [|m ms IH]; intros l H Hdeep; [discriminate Hdeep|].
  simpl in H. apply andb_prop in H. destruct H as [Hm H].
  cbn [serialisable forallb] in Hdeep.
  destruct m as [content|r|]; [| discriminate Hm |].
  - destruct (forallb (fits (headroom json)) content) eqn:Hc.
    + cbn [andb] in Hdeep.
      destruct (IH (advanced l (texts_of content)
                      (length (flat_map classify_block content))) H Hdeep)
        as (tr & rest & name & input & l' & Hs & Hp & Hk & Hq & Ha & Hd & Hin).
      exists (map Yield (stamp now (clock l)
                           (flat_map classify_block content))
                ++ Anext :: tr), rest, name, input, l'.
      assert (He : events (map Yield (stamp now (clock l)
                                        (flat_map classify_block content))
                             ++ Anext :: tr)
                   = stamp now (clock l) (flat_map classify_block content)
                       ++ events tr).
      { rewrite events_app, events_yields. reflexivity. }
      rewrite He, length_app.
      rewrite stamp_length. cbn [clock advanced] in *.
      split; [|split; [|split; [|split; [|split; [|split]]]]].
      * intros tail. cbn [produce stream_loop].
        rewrite stream_blocks_spec by exact Hc. rewrite (Hs tail).
        rewrite Nat.add_assoc. reflexivity.
      * unfold candidates in *. cbn [flat_map classify].
        rewrite stamp_app, Hp, app_assoc. reflexivity.
      * lia.
      * rewrite calls_app, calls_yields. cbn [calls app]. exact Hq.
      * rewrite advances_app, advances_yields. cbn [advances length]. lia.
      * exact Hd.
      * unfold tool_uses in *. cbn [flat_map]. apply in_or_app. right.
        exact Hin.
    + destruct (stream_blocks_deep content l Hc)
        as (evs & rest & name & input & l' & Hs & Hp & Hk & Hd & Hin).
      exists (map Yield evs),
             (rest ++ stamp now (clock l + length (flat_map classify_block content))
                        (candidates ms)),
             name, input, l'.
      rewrite events_yields.
      split; [|split; [|split; [|split; [|split; [|split]]]]].
      * intros tail. cbn [produce stream_loop]. rewrite Hs. reflexivity.
      * unfold candidates in *. cbn [flat_map classify].
        rewrite stamp_app, Hp, app_assoc. reflexivity.
      * exact Hk.
      * apply calls_yields.
      * rewrite advances_yields. cbn [length]. lia.
      * exact Hd.
      * unfold tool_uses. cbn [flat_map]. apply in_or_app. left.
        exact Hin.
  - destruct (IH l H Hdeep)
      as (tr & rest & name & input & l' & Hs & Hp & Hk & Hq & Ha & Hd & Hin).
    exists (Anext :: tr), rest, name, input, l'.
    cbn [events calls advances length].
    split; [|split; [|split; [|split; [|split; [|split]]]]]; auto; try lia.
    intros tail. cbn [produce stream_loop]. rewrite (Hs tail). reflexivity.
Qed.

End Failure.

(** ** Both handlers on any producer *)

Lemma consumed_split (p : Producer) :
  exists tail,
    p = produce (consumed p) tail
    /\ no_result (consumed p) = true
    /\ Closing tail.
Proof.
  induction p as [|e|m rest IH].
  - exists Exhausted. repeat split; constructor.
  - exists (Raises e). repeat split; constructor.
  - destruct IH as (tail & Hp & Hnr & Hc). destruct m as [content|r|].
    + exists tail. cbn [consumed produce no_result forallb is_result negb andb].
      split; [congruence | split; assumption].
    + exists (Yields (ResultMessage r) rest). repeat split; constructor.
    + exists tail. cbn [consumed produce no_result forallb is_result negb andb].
      split; [congruence | split; assumption].
Qed.


Lemma message_trace_starts (now : nat -> string) (n : nat)
    (ms : list Message) :
  exists tr,
    message_trace now n ms ++ [Anext] = Anext :: tr
    /\ events tr = stamp now n (candidates ms)
    /\ calls tr = []
    /\ advances tr = length ms.
Proof.
  assert (He : events (message_trace now n ms ++ [Anext])
               = stamp now n (candidates ms)).
  { rewrite events_app, events_message_trace. apply app_nil_r. }
  assert (Hc : calls (message_trace now n ms ++ [Anext]) = []).
  { rewrite calls_app, calls_message_trace. reflexivity. }
  assert (Ha : advances (message_trace now n ms ++ [Anext]) = length ms + 1).
  { rewrite advances_app, advances_message_trace. reflexivity. }
  destruct ms as [|m ms].
  - exists []. repeat split.
  - cbn [message_trace app] in *.
    exists ((map Yield (stamp now n (classify m))
               ++ message_trace now (n + length (classify m)) ms) ++ [Anext]).
    cbn [events calls advances length] in *.
    repeat split; try assumption. lia.
Qed.

Lemma consumed_produce (ms : list Message) (tail : Producer) :
  no_result ms = true ->
  Closing tail ->
  consumed (produce ms tail) = ms.
Proof.
  intros H Hc. induction ms as [|m ms IH].
  - destruct Hc; reflexivity.
  - simpl in H. apply andb_prop in H. destruct H as [Hm H].
    destruct m as [content|r|]; [| discriminate Hm |];
      cbn [produce consumed]; rewrite (IH H); reflexivity.
Qed.

Lemma count_type_prefix (t : string) (evs rest all : list StreamEvent) :
  all = evs ++ rest -> count_type t all = 0 -> count_type t evs = 0.
Proof. intros -> H. rewrite count_type_app in H. lia. Qed.

Section DeepRuns.

Variable now : nat -> string.
Variable json : Encoder.
Variable request : QueryRequest.
Variable ms : list Message.
Hypothesis ms_no_result : no_result ms = true.

(** The streaming handler on messages [ms] of which one holds a block
    that does not fit, whatever follows [ms]: the frames before that
    block, then the [error] frame for what the encoder raised. *)
Lemma stream_deep_run :
  serialisable (headroom json) ms = false ->
  exists tr rest name input,
    (forall (query : string -> ClaudeAgentOptions -> Producer)
            (tail : Producer),
       query (prompt request) (options_for request) = produce ms tail ->
       stream_agent_progress now query json request
       = map Yield (startup now)
           ++ Query (prompt request) (options_for request) :: Anext :: tr
           ++ [Yield (encoder_error_event now json name input
                        (2 + length (events tr)))])
    /\ stamp now 2 (candidates ms) = events tr ++ rest
    /\ calls tr = []
    /\ advances tr < length ms
    /\ 1 + headroom json < depth (PDict input)
    /\ In (name, input) (tool_uses ms).
Proof.
  intros Hdeep.
  destruct (stream_loop_deep now json ms (tick (tick initial))
              ms_no_result Hdeep)
    as (tr & rest & name & input & l' & Hs & Hp & Hk & Hc & Ha & Hd & Hin).
  exists tr, rest, name, input.
  split; [|repeat split; assumption].
  intros query tail Hq.
  unfold stream_agent_progress, stream_try.
  rewrite !create_event_fits by (cbn; lia).
  rewrite Hq, (Hs tail).
  rewrite create_event_fits by (cbn; lia).
  cbn [clock tick initial] in Hk. rewrite Hk.
  cbn [clock tick initial map startup stamp app]. reflexivity.
Qed.


End DeepRuns.

Section AnyProducer.

Variable now : nat -> string.
Variable query : string -> ClaudeAgentOptions -> Producer.
Variable json : Encoder.
Variable request : QueryRequest.

Let created : Producer := query (prompt request) (options_for request).
Let call : Action := Query (prompt request) (options_for request).

(** The blocking handler: the run of the consumed messages, then its
    reply. *)
Lemma query_shape :
  exists reply,
    query_agent query request
    = (call :: repeat Anext (length (consumed created)) ++ [Anext], reply)
    /\ ((exists u,
           reply = Ok200 (success_body
                            (full_response (texts (consumed created))) u))
        \/ (exists e,
              reply
              = HTTPException 500 ("Agent execution failed: " ++ str e))).
Proof.
  destruct (consumed_split created) as (tail & Hq & Hnr & Hc).
  destruct Hc as [|e|m rest].
  - eexists. split; [exact (query_exhausted query request _ Hnr Hq)|].
    left. eauto.
  - eexists. split; [exact (query_raises query request _ Hnr e Hq)|].
    right. eauto.
  - eexists. split; [exact (query_result query request _ Hnr m rest Hq)|].
    left. eauto.
Qed.

(** Both handlers when every frame of the consumed messages can be
    serialised: success in both or failure in both. *)
Lemma run_shape :
  serialisable (headroom json) (consumed created) = true ->
  exists last reply,
    stream_agent_progress now query json request
    = map Yield (startup now) ++ call
        :: message_trace now 2 (consumed created) ++ [Anext; Yield last]
    /\ query_agent query request
       = (call :: repeat Anext (length (consumed created)) ++ [Anext], reply)
    /\ ((exists u,
           last = complete_event now (consumed created) u
           /\ reply = Ok200 (success_body
                               (full_response (texts (consumed created))) u))
        \/ (exists e,
              last = error_event now (consumed created) e
              /\ reply
                 = HTTPException 500 ("Agent execution failed: " ++ str e))).
Proof.
  intros Hfit.
  destruct (consumed_split created) as (tail & Hq & Hnr & Hc).
  destruct Hc as [|e|m rest].
  - exists (complete_event now (consumed created) []),
           (Ok200 (success_body (full_response (texts (consumed created))) [])).
    split; [exact (stream_exhausted now query json request _ Hnr Hfit Hq)|].
    split; [exact (query_exhausted query request _ Hnr Hq)|].
    left. exists []. auto.
  - exists (error_event now (consumed created) e),
           (HTTPException 500 ("Agent execution failed: " ++ str e)).
    split; [exact (stream_raises now query json request _ Hnr Hfit e Hq)|].
    split; [exact (query_raises query request _ Hnr e Hq)|].
    right. exists e. auto.
  - exists (complete_event now (consumed created) (usage_of m)),
           (Ok200 (success_body (full_response (texts (consumed created)))
                     (usage_of m))).
    split; [exact (stream_result now query json request _ Hnr Hfit m rest Hq)|].
    split; [exact (query_result query request _ Hnr m rest Hq)|].
    left. exists (usage_of m). auto.
Qed.


(** The streaming handler when a frame of the consumed messages cannot be
    serialised: the frames before it, then the [error] frame for what the
    encoder raised. *)
Lemma stream_deep :
  serialisable (headroom json) (consumed created) = false ->
  exists tr rest name input,
    stream_agent_progress now query json request
    = map Yield (startup now) ++ call :: Anext :: tr
        ++ [Yield (encoder_error_event now json name input
                     (2 + length (events tr)))]
    /\ stamp now 2 (candidates (consumed created)) = events tr ++ rest
    /\ calls tr = []
    /\ advances tr < length (consumed created)
    /\ 1 + headroom json < depth (PDict input).
Proof.
  intros Hdeep.
  destruct (consumed_split created) as (tail & Hq & Hnr & _).
  destruct (stream_deep_run now json request (consumed created) Hnr Hdeep)
    as (tr & rest & name & input & Hs & Hp & Hc & Ha & Hd & _).
  exists tr, rest, name, input.
  split; [exact (Hs query tail Hq) | repeat split; assumption].
Qed.

(** The streaming handler on any producer: the two startup frames, the
    creation of the producer and its first advance, frames of blocks of
    the consumed messages in their order, and one last frame, [complete]
    or [error]. *)
Lemma stream_shape :
  exists tr rest last,
    stream_agent_progress now query json request
    = map Yield (startup now) ++ call :: Anext :: tr ++ [Yield last]
    /\ stamp now 2 (candidates (consumed created)) = events tr ++ rest
    /\ calls tr = []
    /\ advances tr <= length (consumed created)
    /\ ((exists resp u,
           type last = "complete"%string /\ data last = complete_data resp u)
        \/ (exists m,
              type last = "error"%string /\ data last = error_data m)).
Proof.
  destruct (serialisable (headroom json) (consumed created)) eqn:Hfit.
  - destruct (run_shape Hfit) as (last & reply & Hs & _ & Hl).
    destruct (message_trace_starts now 2 (consumed created))
      as (tr & Ht & He & Hc & Ha).
    exists tr, [], last. rewrite app_nil_r.
    split; [|split; [auto|split; [assumption|split; [lia|]]]].
    + rewrite Hs.
      change [Anext; Yield last] with ([Anext] ++ [Yield last]).
      rewrite (app_assoc (message_trace now 2 (consumed created))), Ht.
      reflexivity.
    + destruct Hl as [(u & -> & _) | (e & -> & _)].
      * left. eexists _, _. split; reflexivity.
      * right. eexists. split; reflexivity.
  - destruct (stream_deep Hfit) as (tr & rest & name & input & Hs & Hp & Hc & Ha & _).
    exists tr, rest,
           (encoder_error_event now json name input (2 + length (events tr))).
    split; [exact Hs|]. split; [exact Hp|]. split; [exact Hc|].
    split; [lia|]. right. eexists. split; reflexivity.
Qed.

End AnyProducer.

(** ** The claims *)





(** C3: for every producer, failing or not, the stream ends with one
    terminal event, of type [complete] or [error]; no event before it is
    terminal, and nothing at all is done after it (no further frame, no
    further advance of the producer). *)
Theorem C3_one_terminal_event_ends_the_stream
    (now : nat -> string) (query : string -> ClaudeAgentOptions -> Producer)
    (json : Encoder) (request : QueryRequest) :
  exists tr last,
    stream_agent_progress now query json request = tr ++ [Yield last]
    /\ terminal last = true
    /\ forallb (fun ev => negb (terminal ev)) (events tr) = true
    /\ length (filter terminal
                 (events (stream_agent_progress now query json request))) = 1.
Proof.
  destruct (stream_shape now query json request)
    as (tr & rest & last & Hs & Hp & _ & _ & Hl).
  assert (Hlast : terminal last = true).
  { unfold terminal, has_type.
    destruct Hl as [(resp & u & -> & _) | (m & -> & _)]; reflexivity. }
  assert (Hloop : forallb (fun ev => negb (terminal ev)) (events tr) = true).
  { pose proof (stamp_candidates_not_terminal now 2
                  (consumed (query (prompt request) (options_for request))))
      as H.
    rewrite Hp, forallb_app in H. apply andb_prop in H. apply H. }
  assert (Hbefore :
            forallb (fun ev => negb (terminal ev))
              (events (map Yield (startup now)
                         ++ Query (prompt request) (options_for request)
                         :: Anext :: tr)) = true).
  { rewrite events_app, events_yields. cbn [events].
    rewrite forallb_app, Hloop. reflexivity. }
  exists (map Yield (startup now)
            ++ Query (prompt request) (options_for request) :: Anext :: tr),
         last.
  split; [|split; [exact Hlast|split; [exact Hbefore|]]].
  - rewrite Hs, <- app_assoc. reflexivity.
  - rewrite Hs.
    replace (map Yield (startup now)
               ++ Query (prompt request) (options_for request)
               :: Anext :: tr ++ [Yield last])
      with ((map Yield (startup now)
               ++ Query (prompt request) (options_for request)
               :: Anext :: tr) ++ [Yield last])
      by (rewrite <- app_assoc; reflexivity).
    rewrite events_app, filter_app, length_app.
    rewrite (filter_none _ _ Hbefore).
    cbn [events filter]. rewrite Hlast. reflexivity.
Qed.




(** C5, as stated, fails: a body with the empty prompt and [max_turns] 0
    validates, and both endpoints create the producer and advance it. *)
Lemma C5_counterexample :
  body_prompt body_empty_prompt = Some ""%string
  /\ body_max_turns body_empty_prompt = Some 0%Z
  /\ validate body_empty_prompt = Some {| prompt := ""; max_turns := 0 |}
  /\ client_error_query (post_query (always Exhausted) body_empty_prompt)
     = false
  /\ invoked (reply_trace (post_query (always Exhausted) body_empty_prompt))
     = true
  /\ advances (reply_trace (post_query (always Exhausted) body_empty_prompt))
     = 1
  /\ client_error_stream
       (post_stream sample_now (always Exhausted) sample_json
          body_empty_prompt)
     = false
  /\ invoked
       (reply_trace
          (post_stream sample_now (always Exhausted) sample_json
             body_empty_prompt))
     = true
  /\ advances
       (reply_trace
          (post_stream sample_now (always Exhausted) sample_json
             body_empty_prompt))
     = 1.
Proof. repeat split; reflexivity. Qed.

(** C5 (amended): a request body without a prompt is rejected with status
    422 before the producer is created, on both endpoints.  A body with a
    prompt, be it the empty string, and with any integer [max_turns], be it
    zero or negative, is accepted as it is: on both endpoints the producer
    is created with that prompt and that [max_turns] (20 when absent) and
    is advanced. *)
Theorem C5_validation
    (now : nat -> string) (query : string -> ClaudeAgentOptions -> Producer)
    (json : Encoder) (b : Body) :
  (body_prompt b = None ->
     post_query query b = Unprocessable422
     /\ post_stream now query json b = Unprocessable422
     /\ invoked (reply_trace (post_query query b)) = false
     /\ invoked (reply_trace (post_stream now query json b)) = false)
  /\ (forall s : string,
        body_prompt b = Some s ->
        let request :=
          {| prompt := s;
             max_turns := match body_max_turns b with
                          | Some n => n
                          | None => 20%Z
                          end |} in
        post_query query b
          = Handled (fst (query_agent query request))
                    (snd (query_agent query request))
        /\ post_stream now query json b
           = Handled (stream_agent_progress now query json request)
                     (stream_query now query json request)
        /\ client_error_query (post_query query b) = false
        /\ client_error_stream (post_stream now query json b) = false
        /\ (exists tr,
              reply_trace (post_query query b)
              = Query s (options_for request) :: Anext :: tr)
        /\ (exists ev1 ev2 tr,
              reply_trace (post_stream now query json b)
              = Yield ev1 :: Yield ev2
                  :: Query s (options_for request) :: Anext :: tr)).
Proof.
  split.
  - intros H. unfold post_query, post_stream, validate. rewrite H.
    repeat split.
  - intros s H request.
    assert (Hv : validate b = Some request)
      by (unfold validate; rewrite H; reflexivity).
    unfold post_query, post_stream. rewrite Hv.
    destruct (query_shape query request) as (reply & Hb & Hr).
    destruct (stream_shape now query json request)
      as (tr & rest & last & Hs & _).
    assert (Hstartq :
              exists trq,
                repeat Anext
                  (length (consumed (query (prompt request)
                                       (options_for request)))) ++ [Anext]
                = Anext :: trq).
    { destruct (length (consumed (query (prompt request)
                                    (options_for request))));
        simpl; eauto. }
    destruct Hstartq as (trq & Htrq).
    rewrite Hb, Htrq.
    cbn [fst snd reply_trace client_error_query client_error_stream
         stream_query body_iterator].
    rewrite Hs.
    split; [reflexivity|]. split; [reflexivity|].
    split; [destruct Hr as [(u & ->) | (e & ->)]; reflexivity|].
    split; [reflexivity|].
    split; [exists trq; reflexivity|].
    eexists _, _, _. cbn [map startup stamp app]. reflexivity.
Qed.

Lemma C5_validation_witness :
  post_query (always Exhausted) body_without_prompt = Unprocessable422
  /\ post_stream sample_now (always Exhausted) sample_json body_without_prompt
     = Unprocessable422
  /\ client_error_query (post_query (always Exhausted) body_empty_prompt)
     = false
  /\ client_error_stream
       (post_stream sample_now (always Exhausted) sample_json
          body_empty_prompt)
     = false.
Proof.
  destruct (C5_validation sample_now (always Exhausted) sample_json
              body_without_prompt) as [Hmissing _].
  destruct (Hmissing eq_refl) as (Hq & Hs & _).
  destruct (C5_validation sample_now (always Exhausted) sample_json
              body_empty_prompt) as [_ Hempty].
  destruct (Hempty ""%string eq_refl) as (_ & _ & Hcq & Hcs & _).
  repeat split; assumption.
Defined.







(** C8: for every request and every producer, failing at once or not, the
    handler first yields the startup [progress] event, then the processing
    [progress] event, and only then creates the producer and advances it
    for the first time; no later event is a [progress] event. *)
Theorem C8_two_progress_events_first
    (now : nat -> string) (query : string -> ClaudeAgentOptions -> Producer)
    (json : Encoder) (request : QueryRequest) :
  exists rest,
    stream_agent_progress now query json request
    = Yield {| type := "progress"; data := starting_data;
               timestamp := now 0 |}
        :: Yield {| type := "progress"; data := processing_data;
                    timestamp := now 1 |}
        :: Query (prompt request) (options_for request)
        :: Anext :: rest
    /\ count_type "progress" (events rest) = 0
    /\ count_type "progress"
         (events (stream_agent_progress now query json request))
       = 2.
Proof.
  destruct (stream_shape now query json request)
    as (tr & rest & last & Hs & Hp & _ & _ & Hl).
  assert (Hlast : count_type "progress" [last] = 0).
  { unfold count_type, has_type. cbn [filter].
    destruct Hl as [(resp & u & -> & _) | (m & -> & _)]; reflexivity. }
  assert (Hloop : count_type "progress" (events tr) = 0).
  { apply (count_type_prefix "progress" _ _ _ Hp).
    apply stamp_candidates_count; discriminate. }
  assert (Hrest : count_type "progress" (events (tr ++ [Yield last])) = 0).
  { rewrite events_app, count_type_app, Hloop. exact Hlast. }
  exists (tr ++ [Yield last]). rewrite Hs.
  split; [reflexivity|]. split; [exact Hrest|].
  rewrite events_app, events_yields. cbn [events].
  rewrite count_type_app, Hrest. reflexivity.
Qed.






(** ** Further properties of the handlers *)













Lemma query_blocks_text_only (content : list ContentBlock) (l : Locals) :
  query_blocks (filter is_text content) l = query_blocks content l.
Proof.
  revert l. induction content as [|b content IH]; intros l; [reflexivity|].
  destruct b; cbn [filter is_text query_blocks]; apply IH.
Qed.

Lemma query_loop_strip (p : Producer) (l : Locals) :
  snd (query_loop (strip p) l) = snd (query_loop p l).
Proof.
  revert l. induction p as [|e|m rest IH]; intros l; try reflexivity.
  destruct m as [content|r|]; cbn [strip query_loop].
  - rewrite query_blocks_text_only. specialize (IH (query_blocks content l)).
    destruct (query_loop (strip rest) (query_blocks content l)),
             (query_loop rest (query_blocks content l)).
    exact IH.
  - reflexivity.
  - specialize (IH l).
    destruct (query_loop rest l). rewrite IH. reflexivity.
Qed.


(** X4: the reply of the blocking handler depends on the text blocks and on
    the first result message only: tool-use blocks, tool-result blocks,
    blocks of other kinds and messages that are neither assistant nor
    result messages can be taken out of the producer without changing the
    reply, success or failure. *)
Theorem X4_blocking_reply_ignores_other_blocks
    (query : string -> ClaudeAgentOptions -> Producer)
    (request : QueryRequest) :
  snd (query_agent (fun p o => strip (query p o)) request)
  = snd (query_agent query request).
Proof.
  unfold query_agent.
  pose proof (query_loop_strip
                (query (prompt request) (options_for request)) initial) as H.
  destruct (query_loop (strip (query (prompt request) (options_for request)))
              initial),
           (query_loop (query (prompt request) (options_for request)) initial).
  cbn [snd] in *. rewrite H. reflexivity.
Qed.

(** X5: each handler creates the producer exactly once for a request,
    whatever the producer then does (there is no second attempt after a
    failure), with the prompt of the request as it is and with the
    configured tools, system prompt and permission mode and the
    [max_turns] of the request. *)
Theorem X5_producer_is_created_once
    (now : nat -> string) (query : string -> ClaudeAgentOptions -> Producer)
    (json : Encoder) (request : QueryRequest) :
  let options :=
    {| allowed_tools := ["WebSearch"; "WebFetch"; "Read"; "Write"; "Bash"]%string;
       system_prompt := AGENT_CONFIG.system_prompt;
       permission_mode := "acceptEdits";
       max_turns_opt := max_turns request |} in
  calls (stream_agent_progress now query json request)
    = [(prompt request, options)]
  /\ calls (fst (query_agent query request)) = [(prompt request, options)].
Proof.
  intros options.
  destruct (stream_shape now query json request)
    as (tr & rest & last & Hs & _ & Hc & _).
  destruct (query_shape query request) as (reply & Hb & _).
  rewrite Hs, Hb. split.
  - rewrite calls_app, calls_yields. cbn [app calls].
    rewrite calls_app, Hc. reflexivity.
  - cbn [fst calls]. rewrite calls_app, calls_repeat. reflexivity.
Qed.



Lemma stamp_in (now : nat -> string) (n : nat) (cs : list (string * dict))
    (ev : StreamEvent) :
  In ev (stamp now n cs) ->
  exists c, In c cs /\ type ev = fst c /\ data ev = snd c.
Proof.
  revert n. induction cs as [|[t d] cs IH]; intros n; simpl; [tauto|].
  intros [<- | H].
  - exists (t, d). auto.
  - destruct (IH _ H) as (c & Hc & Ht & Hd). exists c. auto.
Qed.

Lemma candidate_shape (ms : list Message) (c : string * dict) :
  In c (candidates ms) ->
  (exists text, classify_block (TextBlock text) = [c])
  \/ (exists name input, classify_block (ToolUseBlock name input) = [c]).
Proof.
  unfold candidates. rewrite in_flat_map. intros (m & _ & H).
  destruct m as [content| |]; cbn [classify In] in H; try tauto.
  rewrite in_flat_map in H. destruct H as (b & _ & H).
  destruct b as [text|name input|id|]; cbn [classify_block In] in H;
    try tauto; destruct H as [<- | []].
  - left. exists text. reflexivity.
  - right. exists name, input. reflexivity.
Qed.

(** X7: every event of a stream, for every producer, has one of the five
    types and a [message] string in its payload; a [response] event is
    marked [partial] and has no [status], and every event of another type
    has a [status] string. *)
Theorem X7_payload_shape
    (now : nat -> string) (query : string -> ClaudeAgentOptions -> Producer)
    (json : Encoder) (request : QueryRequest) (ev : StreamEvent) :
  In ev (events (stream_agent_progress now query json request)) ->
  In (type ev) event_types
  /\ (exists s, get "message" (data ev) = Some (PStr s))
  /\ (type ev = "response"%string ->
      get "partial" (data ev) = Some (PBool true)
      /\ get "status" (data ev) = None)
  /\ (type ev <> "response"%string ->
      exists s, get "status" (data ev) = Some (PStr s)).
Proof.
  destruct (stream_shape now query json request)
    as (tr & rest & last & Hs & Hp & _ & _ & Hl).
  rewrite Hs, events_app, events_yields. cbn [events].
  rewrite events_app. cbn [events].
  rewrite !in_app_iff. intros [H | [H | H]].
  - cbn [startup stamp In] in H. destruct H as [<- | [<- | []]];
      cbn [type data event_types In];
      (split; [auto 10|]); (split; [eexists; reflexivity|]);
      (split; [intros D; discriminate D | intros _; eexists; reflexivity]).
  - assert (Hin : In ev (stamp now 2
                           (candidates
                              (consumed (query (prompt request)
                                           (options_for request))))))
      by (rewrite Hp; apply in_or_app; left; exact H).
    destruct (stamp_in _ _ _ _ Hin) as (c & Hc & Ht & Hd).
    rewrite Ht, Hd.
    destruct (candidate_shape _ _ Hc) as [(text & E) | (name & input & E)];
      cbn [classify_block] in E; injection E as <-; cbn [fst snd].
    + split; [cbn [event_types In]; auto 10|].
      split; [eexists; reflexivity|].
      split; [intros _; split; reflexivity|].
      intros D. exfalso. apply D. reflexivity.
    + split; [cbn [event_types In]; auto 10|].
      split; [eexists; reflexivity|].
      split; [intros D; discriminate D | intros _; eexists; reflexivity].
  - cbn [In] in H. destruct H as [<- | []].
    destruct Hl as [(resp & u & Ht & Hd) | (m & Ht & Hd)];
      rewrite Ht, Hd;
      cbn [event_types In];
      (split; [auto 10|]); (split; [eexists; reflexivity|]);
      (split; [intros D; discriminate D | intros _; eexists; reflexivity]).
Qed.

Lemma X7_payload_shape_witness :
  In (type {| type := "response";
              data := [ ("content", PStr "EUR=0.92");
                        ("partial", PBool true);
                        ("message", PStr "💭 Agent thinking...") ];
              timestamp := sample_now 2 |}) event_types
  /\ (exists s,
        get "message"
          [ ("content", PStr "EUR=0.92"); ("partial", PBool true);
            ("message", PStr "💭 Agent thinking...") ]
        = Some (PStr s)).
Proof.
  destruct (X7_payload_shape sample_now (always texts_then_failure)
              sample_json sample_request
              {| type := "response";
                 data := [ ("content", PStr "EUR=0.92");
                           ("partial", PBool true);
                           ("message", PStr "💭 Agent thinking...") ];
                 timestamp := sample_now 2 |})
    as (Ht & Hm & _).
  - vm_compute. right. right. left. reflexivity.
  - split; [exact Ht | exact Hm].
Defined.

(** X8: what [GET /info] reports is what the handlers use: for every
    request, the tools of [/info] are the tools the producer is allowed,
    and the [agent_info] of a success body and of a [complete] event has
    the [name] and the [role] of [/info]; the role written out in [GET /]
    and the agent named by [GET /health] are those of [/info] too. *)
Theorem X8_info_is_what_the_handlers_use
    (now : nat -> string) (query : string -> ClaudeAgentOptions -> Producer)
    (json : Encoder) (request : QueryRequest) :
  (forall (p : string) (o : ClaudeAgentOptions),
     In (p, o) (calls (stream_agent_progress now query json request)
                  ++ calls (fst (query_agent query request))) ->
     get "tools" get_agent_info = Some (PList (map PStr (allowed_tools o))))
  /\ (forall body : QueryResponse,
        snd (query_agent query request) = Ok200 body ->
        get "name" (agent_info body) = get "name" get_agent_info
        /\ get "role" (agent_info body) = get "role" get_agent_info)
  /\ (forall ev : StreamEvent,
        In ev (events (stream_agent_progress now query json request)) ->
        type ev = "complete"%string ->
        get "agent_info" (data ev)
        = Some (PDict [ ("name", PStr AGENT_CONFIG.name);
                        ("role", PStr AGENT_CONFIG.role) ])
        /\ get "name" get_agent_info = Some (PStr AGENT_CONFIG.name)
        /\ get "role" get_agent_info = Some (PStr AGENT_CONFIG.role))
  /\ get "role" root = get "role" get_agent_info
  /\ get "agent_id" root = get "agent_id" get_agent_info
  /\ get "agent" health_check = get "name" get_agent_info.
Proof.
  destruct (stream_shape now query json request)
    as (tr & rest & last & Hs & Hp & Hc & _ & Hl).
  destruct (query_shape query request) as (reply & Hb & Hr).
  split; [|split; [|split; [|repeat split]]].
  - intros p o H.
    rewrite Hs, Hb in H.
    rewrite calls_app, calls_yields in H. cbn [app calls fst] in H.
    rewrite !calls_app, Hc, calls_repeat in H. cbn [app calls In] in H.
    destruct H as [H | [H | []]]; injection H as <- <-; reflexivity.
  - intros body H.
    rewrite Hb in H. cbn [snd] in H. subst reply.
    destruct Hr as [(u & E) | (e & E)]; [|discriminate E].
    injection E as E. rewrite E. split; reflexivity.
  - intros ev H Ht.
    rewrite Hs, events_app, events_yields in H. cbn [events] in H.
    rewrite events_app in H. cbn [events] in H.
    rewrite !in_app_iff in H. destruct H as [H | [H | H]].
    + cbn [startup stamp In] in H.
      destruct H as [<- | [<- | []]]; discriminate Ht.
    + assert (Hin : In ev (stamp now 2
                             (candidates
                                (consumed (query (prompt request)
                                             (options_for request))))))
        by (rewrite Hp; apply in_or_app; left; exact H).
      destruct (stamp_candidates_type _ _ _ _ Hin) as [E | E];
        rewrite E in Ht; discriminate Ht.
    + cbn [In] in H. destruct H as [<- | []].
      destruct Hl as [(resp & u & _ & Hd) | (m & Ht' & _)].
      * rewrite Hd. repeat split.
      * rewrite Ht' in Ht. discriminate Ht.
Qed.

Lemma X8_info_is_what_the_handlers_use_witness :
  get "tools" get_agent_info
    = Some (PList (map PStr (allowed_tools (options_for sample_request))))
  /\ get "name" (agent_info (success_body "EUR=0.92" (usage_of sample_result)))
     = get "name" get_agent_info.
Proof.
  destruct (X8_info_is_what_the_handlers_use sample_now
              (always (Yields (AssistantMessage [TextBlock "EUR=0.92"])
                         result_only))
              sample_json sample_request) as (Htools & Hbody & _).
  split.
  - apply (Htools (prompt sample_request)). vm_compute. left. reflexivity.
  - apply (Hbody (success_body "EUR=0.92" (usage_of sample_result))).
    reflexivity.
Defined.




Lemma append_assoc (a b c : string) :
  ((a ++ b) ++ c = a ++ (b ++ c))%string.
Proof. induction a as [|x a IH]; simpl; congruence. Qed.

Lemma concat_app (sep : string) (a b : list string) :
  a <> [] -> b <> [] ->
  String.concat sep (a ++ b)
  = (String.concat sep a ++ sep ++ String.concat sep b)%string.
Proof.
  intros Ha Hb. induction a as [|x a IH]; [congruence|].
  destruct a as [|y a].
  - destruct b as [|z b]; [congruence|]. reflexivity.
  - change (String.concat sep ((x :: y :: a) ++ b))
      with (x ++ sep ++ String.concat sep ((y :: a) ++ b))%string.
    rewrite IH by discriminate.
    change (String.concat sep (x :: y :: a))
      with (x ++ sep ++ String.concat sep (y :: a))%string.
    rewrite !append_assoc. reflexivity.
Qed.

(** X10: the blocking response of a run made of two runs, each with at
    least one text block, is the response of the first, a newline, and the
    response of the second: nothing of either is cut, merged or dropped. *)
Theorem X10_response_of_two_runs
    (request : QueryRequest) (ms1 ms2 : list Message) :
  no_result ms1 = true ->
  no_result ms2 = true ->
  texts ms1 <> [] ->
  texts ms2 <> [] ->
  exists b1 b2 b12,
    snd (query_agent (always (produce ms1 Exhausted)) request) = Ok200 b1
    /\ snd (query_agent (always (produce ms2 Exhausted)) request) = Ok200 b2
    /\ snd (query_agent (always (produce (ms1 ++ ms2) Exhausted)) request)
       = Ok200 b12
    /\ response b12 = (response b1 ++ newline ++ response b2)%string.
Proof.
  intros H1 H2 T1 T2.
  assert (H12 : no_result (ms1 ++ ms2) = true).
  { unfold no_result in *. rewrite forallb_app, H1, H2. reflexivity. }
  assert (T12 : texts (ms1 ++ ms2) = texts ms1 ++ texts ms2)
    by apply flat_map_app.
  exists (success_body (full_response (texts ms1)) []),
         (success_body (full_response (texts ms2)) []),
         (success_body (full_response (texts (ms1 ++ ms2))) []).
  rewrite (query_exhausted (always (produce ms1 Exhausted)) request ms1 H1
             eq_refl).
  rewrite (query_exhausted (always (produce ms2 Exhausted)) request ms2 H2
             eq_refl).
  rewrite (query_exhausted (always (produce (ms1 ++ ms2) Exhausted)) request
             (ms1 ++ ms2) H12 eq_refl).
  repeat split. cbn [response success_body].
  rewrite T12, !full_response_joined; try assumption.
  - apply concat_app; assumption.
  - intros E. apply app_eq_nil in E. destruct E as [E _]. contradiction.
Qed.

Lemma X10_response_of_two_runs_witness :
  exists b1 b2 b12,
    snd (query_agent (always (produce sample_messages Exhausted))
           sample_request) = Ok200 b1
    /\ snd (query_agent
              (always (produce [AssistantMessage [TextBlock "CHF=0.88"]]
                         Exhausted))
              sample_request) = Ok200 b2
    /\ snd (query_agent
              (always (produce
                         (sample_messages
                            ++ [AssistantMessage [TextBlock "CHF=0.88"]])
                         Exhausted))
              sample_request) = Ok200 b12
    /\ response b12 = (response b1 ++ newline ++ response b2)%string.
Proof.
  apply (X10_response_of_two_runs sample_request sample_messages
           [AssistantMessage [TextBlock "CHF=0.88"]]).
  - reflexivity.
  - reflexivity.
  - discriminate.
  - discriminate.
Defined.


